(** * tools/apk_utils.py: re-signing an APK with the debug keystore

    [sign] strips the signature entries of an unsigned package with
    [zip -d] and signs the result with [jarsigner].  Its behaviour is the
    sequence of lines it prints, the processes it starts, what those
    processes leave behind, and whether it returns or raises.

    The external tools are not part of the program: they are an arbitrary
    function [tool] from an argument vector and a state of the world to what
    the process library reports.  The file has two layers.

    - In the first ([sign]) every child starts and ends with an exit status:
      [tool] yields a status and a new world.  It carries the properties
      that speak of exit statuses and of the commands that are built.
    - In the second ([Launch.sign]) the process library may also fail to
      start a child (the program is missing, an argument cannot be passed):
      then it raises, no child has run and the world is as before.  It
      carries the properties that speak of every run.  [launch_sign_refines]
      shows that the first layer is the second one restricted to tools that
      start. *)

From stdpp Require Import base strings list gmap.
From Stdlib Require Import ZArith Ascii.

Local Open Scope string_scope.
Local Open Scope Z_scope.

(** ** Data *)

(** An argument vector, as the lists handed to [subprocess]. *)
Definition argv : Type := list string.

(** [subprocess.CalledProcessError(returncode, cmd)]. *)
Inductive exn : Type :=
| CalledProcessError (returncode : Z) (cmd : argv).

(** What a run lets an observer see, in the order it happens. *)
Inductive event : Type :=
| Stdout (line : string)              (* a line written by [print] *)
| Spawn (cmd : argv)                  (* a child process is started *)
| Exit (cmd : argv) (returncode : Z). (* that child has ended *)

Inductive outcome (A : Type) : Type :=
| Returned (a : A)
| Raised (e : exn).
Arguments Returned {A} a.
Arguments Raised {A} e.

Record run (W A : Type) : Type := Run {
  result : outcome A;
  world : W;
  trace : list event
}.
Arguments Run {W A} _ _ _.
Arguments result {W A} _.
Arguments world {W A} _.
Arguments trace {W A} _.

(** A Python statement sequence: it starts in a world and ends with an
    outcome, the world the children left and the events of the run. *)
Definition py (W A : Type) : Type := W → run W A.

Instance py_ret {W} : MRet (py W) :=
  λ A a w, Run (Returned a) w [].

Instance py_bind {W} : MBind (py W) :=
  λ A B f m w,
    let r := m w in
    match result r with
    | Returned a =>
        let r' := f a (world r) in
        Run (result r') (world r') (trace r ++ trace r')
    | Raised e => Run (Raised e) (world r) (trace r)
    end.

Instance py_throw {W} : MThrow exn (py W) :=
  λ A e w, Run (Raised e) w [].

(** Observations on a trace. *)
Definition is_process_event (e : event) : bool :=
  match e with
  | Stdout _ => false
  | Spawn _ | Exit _ _ => true
  end.

Definition process_events (t : list event) : list event :=
  List.filter is_process_event t.

Fixpoint spawned (t : list event) : list argv :=
  match t with
  | [] => []
  | Spawn cmd :: t' => cmd :: spawned t'
  | _ :: t' => spawned t'
  end.

(** The attributes [returncode] and [cmd] of the exception. *)
Definition exn_returncode (e : exn) : Z :=
  match e with CalledProcessError returncode _ => returncode end.

Definition exn_cmd (e : exn) : argv :=
  match e with CalledProcessError _ cmd => cmd end.

(** The name of the program an argument vector starts. *)
Definition program (cmd : argv) : option string := head cmd.

(** The exit status of the first child of the trace that ran [prog]. *)
Fixpoint exit_status (prog : string) (t : list event) : option Z :=
  match t with
  | [] => None
  | Exit cmd code :: t' =>
      if bool_decide (program cmd = Some prog) then Some code
      else exit_status prog t'
  | _ :: t' => exit_status prog t'
  end.

(** ** The program *)

Section Sign.

(** The state of everything outside the interpreter (the file system). *)
Context {W : Type}.

(** The external tools: running [cmd] in a world yields its exit status
    and the world it leaves. *)
Variable tool : argv → W → Z * W.

(** The text [utils.PrintCmd] writes for a command. *)
Variable describe : argv → string.

(** The [print] statement. *)
Definition print (line : string) : py W () :=
  λ w, Run (Returned ()) w [Stdout line].

(** Modelled from the spec: [utils.PrintCmd] is imported from the module
    [utils], which is not among the sources.  The spec says of it that
    diagnostic text describing each invocation is emitted before it runs;
    it is a [print] of a text computed from the command. *)
Definition PrintCmd (cmd : argv) : py W () :=
  print (describe cmd).

(** [subprocess.call(cmd)]: start the child, wait for it, return its
    exit status. *)
Definition subprocess_call (cmd : argv) : py W Z :=
  λ w, let '(retcode, w') := tool cmd w in
       Run (Returned retcode) w' [Spawn cmd; Exit cmd retcode].

(** [subprocess.check_call(cmd)]: as [call], but a non-zero status raises
    [CalledProcessError(retcode, cmd)]; otherwise it returns 0. *)
Definition subprocess_check_call (cmd : argv) : py W Z :=
  retcode ← subprocess_call cmd;
  if bool_decide (retcode ≠ 0)
  then mthrow (CalledProcessError retcode cmd)
  else mret 0.

Definition sign (unsigned_apk signed_apk keystore : string) : py W () :=
  print "Signing (ignore the warnings)";;
  let cmd := ["zip"; "-d"; unsigned_apk; "META-INF/*"] in
  PrintCmd cmd;;
  _ ← subprocess_call cmd;
  let cmd := [
    "jarsigner";
    "-sigalg"; "SHA1withRSA";
    "-digestalg"; "SHA1";
    "-keystore"; keystore;
    "-storepass"; "android";
    "-signedjar"; signed_apk;
    unsigned_apk;
    "androiddebugkey"
  ] in
  PrintCmd cmd;;
  _ ← subprocess_check_call cmd;
  mret ().

End Sign.

(** ** The invocations as the specification writes them *)

(** Collaborator A: [<tool> -d <unsignedPackagePath> META-INF/*]. *)
Definition spec_archive_invocation (unsignedPackagePath : string) : argv :=
  ["zip"; "-d"; unsignedPackagePath; "META-INF/*"].

(** Collaborator B: [<tool> -sigalg SHA1withRSA -digestalg SHA1 -keystore
    <keystorePath> -storepass android -signedjar <signedPackagePath>
    <unsignedPackagePath> androiddebugkey]. *)
Definition spec_signing_invocation
  (unsignedPackagePath signedPackagePath keystorePath : string) : argv :=
  ["jarsigner"; "-sigalg"; "SHA1withRSA"; "-digestalg"; "SHA1";
   "-keystore"; keystorePath; "-storepass"; "android";
   "-signedjar"; signedPackagePath; unsignedPackagePath; "androiddebugkey"].

(** An argument vector written as one line, words separated by a blank. *)
Definition command_line (cmd : argv) : string := String.concat " " cmd.

(** ** A sample world

    A file system maps a path to the entry names of the archive stored
    there.  The sample tools are simple stand-ins for the real ones, used to
    run [sign] on concrete inputs: [zip -d] removes the entries under
    [META-INF/] and exits with 12 when there is nothing to remove;
    [jarsigner] needs the keystore and the input, adds signature entries to
    a copy of the input, and on failure exits with 1, leaving a truncated
    output behind. *)
Definition sample_zip (cmd : argv) (fs : gmap string (list string))
  : Z * gmap string (list string) :=
  match cmd !! 2%nat with
  | Some path =>
      match fs !! path with
      | Some entries =>
          let kept := List.filter (λ e, negb (String.prefix "META-INF/" e)) entries in
          if bool_decide (kept = entries) then (12, fs)
          else (0, <[path := kept]> fs)
      | None => (12, fs)
      end
  | None => (16, fs)
  end.

Definition sample_jarsigner (cmd : argv) (fs : gmap string (list string))
  : Z * gmap string (list string) :=
  match cmd !! 6%nat, cmd !! 10%nat, cmd !! 11%nat with
  | Some keystore, Some out, Some inp =>
      match fs !! keystore, fs !! inp with
      | Some _, Some entries =>
          (0, <[out := (entries ++ ["META-INF/MANIFEST.MF";
                                     "META-INF/ANDROIDD.SF";
                                     "META-INF/ANDROIDD.RSA"])%list]> fs)
      | _, _ => (1, <[out := []]> fs)
      end
  | _, _, _ => (1, fs)
  end.

Definition sample_tool (cmd : argv) (fs : gmap string (list string))
  : Z * gmap string (list string) :=
  if bool_decide (program cmd = Some "zip") then sample_zip cmd fs
  else if bool_decide (program cmd = Some "jarsigner") then sample_jarsigner cmd fs
  else (127, fs).

Definition sample_describe (cmd : argv) : string := command_line cmd.

(** An unsigned package with old signature entries, and the debug keystore. *)
Definition sample_fs : gmap string (list string) :=
  <["app-unsigned.apk" := ["AndroidManifest.xml"; "META-INF/MANIFEST.MF"; "classes.dex"]]>
  (<["debug.keystore" := ["androiddebugkey"]]> ∅).

(** The same package already stripped of its signature entries. *)
Definition stripped_fs : gmap string (list string) :=
  <["app-unsigned.apk" := ["AndroidManifest.xml"; "classes.dex"]]>
  (<["debug.keystore" := ["androiddebugkey"]]> ∅).

Definition sample_sign (unsigned_apk signed_apk keystore : string)
  : py (gmap string (list string)) () :=
  sign sample_tool sample_describe unsigned_apk signed_apk keystore.

(** The sample tools with a [zip] that changes the archive as [sample_zip]
    does but always exits with [status]. *)
Definition sample_tool_zip_status (status : Z)
  (cmd : argv) (fs : gmap string (list string))
  : Z * gmap string (list string) :=
  if bool_decide (program cmd = Some "zip") then (status, (sample_zip cmd fs).2)
  else sample_tool cmd fs.

(** Something a caller does after [sign]: installing the signed package. *)
Definition sample_install : py (gmap string (list string)) Z :=
  subprocess_call sample_tool ["adb"; "install"; "app-signed.apk"].

(** ** The program, with children that may fail to start *)

Module Launch.

(** Why the process library did not start a child: [OSError] when the
    program cannot be executed (it is missing, or the arguments are too
    long), [TypeError] or [ValueError], according to the interpreter, when
    an argument cannot be passed (it holds a NUL character).  These
    exceptions have no [returncode] and no [cmd]. *)
Inductive start_error : Type :=
| CannotExecute
| BadArgument.

(** What [sign] can raise. *)
Inductive error : Type :=
| Process (e : exn)
| Start (e : start_error).

(** What the process library reports for a command in a world. *)
Inductive started (W : Type) : Type :=
| Exited (returncode : Z) (w' : W)
| NotStarted (e : start_error).
Arguments Exited {W} returncode w'.
Arguments NotStarted {W} e.

Inductive outcome (A : Type) : Type :=
| Returned (a : A)
| Raised (e : error).
Arguments Returned {A} a.
Arguments Raised {A} e.

Record run (W A : Type) : Type := Run {
  result : outcome A;
  world : W;
  trace : list event
}.
Arguments Run {W A} _ _ _.
Arguments result {W A} _.
Arguments world {W A} _.
Arguments trace {W A} _.

Definition py (W A : Type) : Type := W → run W A.

#[global] Instance py_ret {W} : MRet (py W) :=
  λ A a w, Run (Returned a) w [].

#[global] Instance py_bind {W} : MBind (py W) :=
  λ A B f m w,
    let r := m w in
    match result r with
    | Returned a =>
        let r' := f a (world r) in
        Run (result r') (world r') (trace r ++ trace r')
    | Raised e => Run (Raised e) (world r) (trace r)
    end.

#[global] Instance py_throw {W} : MThrow error (py W) :=
  λ A e w, Run (Raised e) w [].

Section Sign.

Context {W : Type}.

(** The external tools and the process library that starts them. *)
Variable tool : argv → W → started W.

(** The text [utils.PrintCmd] writes for a command. *)
Variable describe : argv → string.

(** The [print] statement. *)
Definition print (line : string) : py W () :=
  λ w, Run (Returned ()) w [Stdout line].

(** Modelled from the spec: [utils.PrintCmd] is imported from the module
    [utils], which is not among the sources.  The spec says of it that
    diagnostic text describing each invocation is emitted before it runs;
    it is a [print] of a text computed from the command. *)
Definition PrintCmd (cmd : argv) : py W () :=
  print (describe cmd).

(** [subprocess.call(cmd)]: start the child, wait for it, return its exit
    status; when the child cannot be started, raise, nothing having run. *)
Definition subprocess_call (cmd : argv) : py W Z :=
  λ w, match tool cmd w with
       | Exited retcode w' =>
           Run (Returned retcode) w' [Spawn cmd; Exit cmd retcode]
       | NotStarted e => Run (Raised (Start e)) w []
       end.

(** [subprocess.check_call(cmd)]: as [call], but a non-zero status raises
    [CalledProcessError(retcode, cmd)]; otherwise it returns 0. *)
Definition subprocess_check_call (cmd : argv) : py W Z :=
  retcode ← subprocess_call cmd;
  if bool_decide (retcode ≠ 0)
  then mthrow (Process (CalledProcessError retcode cmd))
  else mret 0.

Definition sign (unsigned_apk signed_apk keystore : string) : py W () :=
  print "Signing (ignore the warnings)";;
  let cmd := ["zip"; "-d"; unsigned_apk; "META-INF/*"] in
  PrintCmd cmd;;
  _ ← subprocess_call cmd;
  let cmd := [
    "jarsigner";
    "-sigalg"; "SHA1withRSA";
    "-digestalg"; "SHA1";
    "-keystore"; keystore;
    "-storepass"; "android";
    "-signedjar"; signed_apk;
    unsigned_apk;
    "androiddebugkey"
  ] in
  PrintCmd cmd;;
  _ ← subprocess_check_call cmd;
  mret ().

(** Both tools of a run can be started. *)
Definition both_start (unsigned_apk signed_apk keystore : string) (w : W) : Prop :=
  ∃ code1 w1 code2 w2,
    tool ["zip"; "-d"; unsigned_apk; "META-INF/*"] w = Exited code1 w1
    ∧ tool ["jarsigner"; "-sigalg"; "SHA1withRSA"; "-digestalg"; "SHA1";
            "-keystore"; keystore; "-storepass"; "android";
            "-signedjar"; signed_apk; unsigned_apk; "androiddebugkey"] w1
      = Exited code2 w2.

End Sign.

(** What the process library reports, without the world. *)
Definition verdict {W : Type} (s : started W) : Z + start_error :=
  match s with
  | Exited returncode _ => inl returncode
  | NotStarted e => inr e
  end.

End Launch.

(** Tools that always start, and a run of the first layer read as a run of
    the second. *)
Definition always_started {W : Type} (tool : argv → W → Z * W)
  (cmd : argv) (w : W) : Launch.started W :=
  Launch.Exited (tool cmd w).1 (tool cmd w).2.

Definition launch_run {W A : Type} (r : run W A) : Launch.run W A :=
  Launch.Run
    (match result r with
     | Returned a => Launch.Returned a
     | Raised e => Launch.Raised (Launch.Process e)
     end)
    (world r) (trace r).

(** ** A sample process library

    It refuses an argument that holds a NUL character, cannot execute a
    program that is not installed, and otherwise runs the sample tools. *)
Definition has_nul (s : string) : bool :=
  existsb (Ascii.eqb "000"%char) (String.list_ascii_of_string s).

Definition sample_launcher (installed : list string)
  (cmd : argv) (fs : gmap string (list string))
  : Launch.started (gmap string (list string)) :=
  if existsb has_nul cmd then Launch.NotStarted Launch.BadArgument
  else match program cmd with
       | Some prog =>
           if bool_decide (prog ∈ installed)
           then Launch.Exited (sample_tool cmd fs).1 (sample_tool cmd fs).2
           else Launch.NotStarted Launch.CannotExecute
       | None => Launch.NotStarted Launch.CannotExecute
       end.

(** A path with a NUL character in it. *)
Definition nul_path : string := "app" +:+ String "000"%char "unsigned.apk".

(** * Properties of [sign] *)

Section SignFacts.

Context {W : Type}.
Variable tool : argv → W → Z * W.
Variable describe : argv → string.

(** ** The run of [sign], step by step *)

Lemma sign_unfold unsigned_apk signed_apk keystore w :
  sign tool describe unsigned_apk signed_apk keystore w =
  let z := spec_archive_invocation unsigned_apk in
  let j := spec_signing_invocation unsigned_apk signed_apk keystore in
  let r1 := tool z w in
  let r2 := tool j r1.2 in
  Run (if bool_decide (r2.1 ≠ 0)
       then Raised (CalledProcessError r2.1 j) else Returned ())
      r2.2
      [Stdout "Signing (ignore the warnings)";
       Stdout (describe z); Spawn z; Exit z r1.1;
       Stdout (describe j); Spawn j; Exit j r2.1].
Proof.
  unfold sign, subprocess_check_call, subprocess_call, PrintCmd, print.
  unfold spec_archive_invocation, spec_signing_invocation.
  unfold mbind, py_bind, mret, py_ret, mthrow, py_throw.
  cbn -[bool_decide].
  destruct (tool _ w) as [c1 w1]; cbn -[bool_decide].
  destruct (tool _ w1) as [c2 w2]; cbn -[bool_decide].
  destruct (bool_decide (c2 ≠ 0)); reflexivity.
Qed.

Lemma sign_trace unsigned_apk signed_apk keystore w :
  let z := spec_archive_invocation unsigned_apk in
  let j := spec_signing_invocation unsigned_apk signed_apk keystore in
  trace (sign tool describe unsigned_apk signed_apk keystore w) =
  [Stdout "Signing (ignore the warnings)";
   Stdout (describe z); Spawn z; Exit z (tool z w).1;
   Stdout (describe j); Spawn j; Exit j (tool j (tool z w).2).1].
Proof. rewrite sign_unfold. reflexivity. Qed.

Lemma sign_result unsigned_apk signed_apk keystore w :
  let z := spec_archive_invocation unsigned_apk in
  let j := spec_signing_invocation unsigned_apk signed_apk keystore in
  let code := (tool j (tool z w).2).1 in
  result (sign tool describe unsigned_apk signed_apk keystore w) =
  if bool_decide (code ≠ 0)
  then Raised (CalledProcessError code j) else Returned ().
Proof. rewrite sign_unfold. reflexivity. Qed.

Lemma sign_world unsigned_apk signed_apk keystore w :
  let z := spec_archive_invocation unsigned_apk in
  let j := spec_signing_invocation unsigned_apk signed_apk keystore in
  world (sign tool describe unsigned_apk signed_apk keystore w) =
  (tool j (tool z w).2).2.
Proof. rewrite sign_unfold. reflexivity. Qed.


Lemma sign_exit_status_jarsigner unsigned_apk signed_apk keystore w :
  exit_status "jarsigner"
    (trace (sign tool describe unsigned_apk signed_apk keystore w))
  = Some (tool (spec_signing_invocation unsigned_apk signed_apk keystore)
               (tool (spec_archive_invocation unsigned_apk) w).2).1.
Proof. rewrite sign_trace. reflexivity. Qed.

Lemma sign_spawned unsigned_apk signed_apk keystore w :
  spawned (trace (sign tool describe unsigned_apk signed_apk keystore w)) =
  [spec_archive_invocation unsigned_apk;
   spec_signing_invocation unsigned_apk signed_apk keystore].
Proof. rewrite sign_trace. reflexivity. Qed.


(** ** Failure of the two steps *)

(** C1: when the signing tool ([jarsigner], the second child) exits with a
    non-zero status, [sign] raises: its outcome is an exception and never
    the normal return, that exit is the last thing that happens in the run,
    and this holds for every tool, whatever it wrote before failing. *)
Theorem sign_signing_failure_is_fatal unsigned_apk signed_apk keystore w code :
  exit_status "jarsigner"
    (trace (sign tool describe unsigned_apk signed_apk keystore w)) = Some code →
  code ≠ 0 →
  (∃ e, result (sign tool describe unsigned_apk signed_apk keystore w) = Raised e)
  ∧ result (sign tool describe unsigned_apk signed_apk keystore w) ≠ Returned ()
  ∧ last (trace (sign tool describe unsigned_apk signed_apk keystore w))
    = Some (Exit (spec_signing_invocation unsigned_apk signed_apk keystore) code).
Proof.
  rewrite sign_exit_status_jarsigner, sign_result, sign_trace.
  intros [= <-] Hcode. cbn zeta.
  rewrite bool_decide_eq_true_2 by assumption.
  split; [eexists; reflexivity|]. split; [discriminate | reflexivity].
Qed.


(** C7: when the signing tool exits with a non-zero status, the exception
    [sign] raises has that status as its [returncode] and the command that
    was run as its [cmd]. *)
Theorem sign_error_carries_command_and_status
  unsigned_apk signed_apk keystore w code :
  exit_status "jarsigner"
    (trace (sign tool describe unsigned_apk signed_apk keystore w)) = Some code →
  code ≠ 0 →
  ∃ e,
    result (sign tool describe unsigned_apk signed_apk keystore w) = Raised e
    ∧ exn_returncode e = code
    ∧ exn_cmd e = spec_signing_invocation unsigned_apk signed_apk keystore
    ∧ Exit (exn_cmd e) (exn_returncode e)
      ∈ trace (sign tool describe unsigned_apk signed_apk keystore w).
Proof.
  rewrite sign_exit_status_jarsigner, sign_result, sign_trace.
  intros [= <-] Hcode. cbn zeta.
  rewrite bool_decide_eq_true_2 by assumption.
  eexists. split; [reflexivity|]. cbn [exn_returncode exn_cmd].
  repeat split. set_solver.
Qed.

(** C8: when the signing tool exits with a non-zero status, [sign] raises
    having started each tool once and nothing else; the world it leaves is
    the one the signing tool left after the archive tool, so whatever the
    signing tool does not touch (the input archive) is as [zip -d] left it. *)
Theorem sign_failure_leaves_archive_stripped {A : Type} (obs : W → A)
  unsigned_apk signed_apk keystore w code :
  exit_status "jarsigner"
    (trace (sign tool describe unsigned_apk signed_apk keystore w)) = Some code →
  code ≠ 0 →
  (∀ w', obs (tool (spec_signing_invocation unsigned_apk signed_apk keystore) w').2
         = obs w') →
  (∃ e, result (sign tool describe unsigned_apk signed_apk keystore w) = Raised e)
  ∧ spawned (trace (sign tool describe unsigned_apk signed_apk keystore w))
    = [spec_archive_invocation unsigned_apk;
       spec_signing_invocation unsigned_apk signed_apk keystore]
  ∧ world (sign tool describe unsigned_apk signed_apk keystore w)
    = (tool (spec_signing_invocation unsigned_apk signed_apk keystore)
            (tool (spec_archive_invocation unsigned_apk) w).2).2
  ∧ obs (world (sign tool describe unsigned_apk signed_apk keystore w))
    = obs (tool (spec_archive_invocation unsigned_apk) w).2.
Proof.
  rewrite sign_exit_status_jarsigner, sign_result, sign_spawned, sign_world.
  intros [= <-] Hcode Hframe. cbn zeta.
  rewrite bool_decide_eq_true_2 by assumption.
  split; [eexists; reflexivity|]. repeat split. apply Hframe.
Qed.

(** ** The two invocations *)



(** ** Order of the events *)


End SignFacts.

(** ** Independence from the world *)


(** * Runs in the sample world *)

(** The sample signing tool writes only its output file. *)
Lemma sample_jarsigner_keeps_input keystore (fs : gmap string (list string)) :
  (sample_tool
     (spec_signing_invocation "app-unsigned.apk" "app-signed.apk" keystore) fs).2
  !! "app-unsigned.apk" = fs !! "app-unsigned.apk".
Proof.
  unfold sample_tool, sample_jarsigner, spec_signing_invocation.
  rewrite bool_decide_eq_false_2 by discriminate.
  rewrite bool_decide_eq_true_2 by reflexivity.
  cbn [lookup list_lookup].
  destruct (fs !! keystore), (fs !! "app-unsigned.apk") eqn:Hinput;
    cbn [snd]; rewrite lookup_insert_ne by discriminate; exact Hinput.
Qed.

(** The scenario of the specification: signing succeeds, the input loses its
    [META-INF/] entries and the output carries the new signature. *)
Example sample_sign_scenario :
  let r := sample_sign "app-unsigned.apk" "app-signed.apk" "debug.keystore" sample_fs in
  result r = Returned ()
  ∧ world r !! "app-unsigned.apk" = Some ["AndroidManifest.xml"; "classes.dex"]
  ∧ world r !! "app-signed.apk"
    = Some ["AndroidManifest.xml"; "classes.dex"; "META-INF/MANIFEST.MF";
            "META-INF/ANDROIDD.SF"; "META-INF/ANDROIDD.RSA"].
Proof. vm_compute. repeat split. Qed.

(** A missing keystore: the call raises, a truncated output is left, and the
    input stays stripped. *)
Example sample_sign_missing_keystore :
  let r := sample_sign "app-unsigned.apk" "app-signed.apk" "nope.keystore" sample_fs in
  result r
  = Raised (CalledProcessError 1
      (spec_signing_invocation "app-unsigned.apk" "app-signed.apk" "nope.keystore"))
  ∧ world r !! "app-signed.apk" = Some []
  ∧ world r !! "app-unsigned.apk" = Some ["AndroidManifest.xml"; "classes.dex"]
  ∧ sample_fs !! "app-unsigned.apk"
    = Some ["AndroidManifest.xml"; "META-INF/MANIFEST.MF"; "classes.dex"].
Proof. vm_compute. repeat split. Qed.

Lemma sign_signing_failure_is_fatal_witness :
  let r := sample_sign "app-unsigned.apk" "app-signed.apk" "nope.keystore" sample_fs in
  (exit_status "jarsigner" (trace r) = Some 1 ∧ 1 ≠ 0)
  ∧ (∃ e, result r = Raised e)
  ∧ result r ≠ Returned ()
  ∧ last (trace r)
    = Some (Exit (spec_signing_invocation
                    "app-unsigned.apk" "app-signed.apk" "nope.keystore") 1).
Proof.
  cbn zeta. unfold sample_sign.
  split; [split; [vm_compute; reflexivity | lia]|].
  apply (sign_signing_failure_is_fatal sample_tool sample_describe
           "app-unsigned.apk" "app-signed.apk" "nope.keystore" sample_fs 1);
    [vm_compute; reflexivity | lia].
Defined.


Lemma sign_error_carries_command_and_status_witness :
  let r := sample_sign "app-unsigned.apk" "app-signed.apk" "nope.keystore" sample_fs in
  (exit_status "jarsigner" (trace r) = Some 1 ∧ 1 ≠ 0)
  ∧ ∃ e,
      result r = Raised e
      ∧ exn_returncode e = 1
      ∧ exn_cmd e
        = spec_signing_invocation "app-unsigned.apk" "app-signed.apk" "nope.keystore"
      ∧ Exit (exn_cmd e) (exn_returncode e) ∈ trace r.
Proof.
  cbn zeta. unfold sample_sign.
  split; [split; [vm_compute; reflexivity | lia]|].
  apply (sign_error_carries_command_and_status sample_tool sample_describe
           "app-unsigned.apk" "app-signed.apk" "nope.keystore" sample_fs 1);
    [vm_compute; reflexivity | lia].
Defined.

Lemma sign_failure_leaves_archive_stripped_witness :
  let obs := λ fs : gmap string (list string), fs !! "app-unsigned.apk" in
  let j := spec_signing_invocation "app-unsigned.apk" "app-signed.apk" "nope.keystore" in
  let r := sample_sign "app-unsigned.apk" "app-signed.apk" "nope.keystore" sample_fs in
  (exit_status "jarsigner" (trace r) = Some 1 ∧ 1 ≠ 0
   ∧ ∀ fs, obs (sample_tool j fs).2 = obs fs)
  ∧ (∃ e, result r = Raised e)
  ∧ spawned (trace r) = [spec_archive_invocation "app-unsigned.apk"; j]
  ∧ world r
    = (sample_tool j
         (sample_tool (spec_archive_invocation "app-unsigned.apk") sample_fs).2).2
  ∧ obs (world r)
    = obs (sample_tool (spec_archive_invocation "app-unsigned.apk") sample_fs).2.
Proof.
  cbn zeta. unfold sample_sign.
  split;
    [split; [vm_compute; reflexivity
            | split; [lia | apply sample_jarsigner_keeps_input]]|].
  apply (sign_failure_leaves_archive_stripped sample_tool sample_describe
           (λ fs : gmap string (list string), fs !! "app-unsigned.apk")
           "app-unsigned.apk" "app-signed.apk" "nope.keystore" sample_fs 1);
    [vm_compute; reflexivity | lia | apply sample_jarsigner_keeps_input].
Defined.



(** * Further properties of [sign] *)

Section SignMore.

Context {W : Type}.
Variable tool : argv → W → Z * W.
Variable describe : argv → string.

(** X4: [sign] changes nothing in the world by itself: whatever both of its
    commands leave as it was is after the call as it was before. *)
Theorem sign_preserves_what_tools_preserve {A : Type} (obs : W → A)
  unsigned_apk signed_apk keystore w :
  (∀ w', obs (tool (spec_archive_invocation unsigned_apk) w').2 = obs w') →
  (∀ w', obs (tool (spec_signing_invocation unsigned_apk signed_apk keystore) w').2
         = obs w') →
  obs (world (sign tool describe unsigned_apk signed_apk keystore w)) = obs w.
Proof.
  intros Hzip Hjarsigner. rewrite sign_world. cbn zeta.
  rewrite Hjarsigner. apply Hzip.
Qed.

(** X5: when [jarsigner] exits with a non-zero status, nothing that follows
    the call of [sign] is run: the sequence raises the exception of [sign]
    and has the world and the trace of [sign] alone. *)
Theorem sign_failure_aborts_what_follows {B : Type} (rest : py W B)
  unsigned_apk signed_apk keystore w code :
  exit_status "jarsigner"
    (trace (sign tool describe unsigned_apk signed_apk keystore w)) = Some code →
  code ≠ 0 →
  result ((sign tool describe unsigned_apk signed_apk keystore;; rest) w)
  = Raised (CalledProcessError code
              (spec_signing_invocation unsigned_apk signed_apk keystore))
  ∧ world ((sign tool describe unsigned_apk signed_apk keystore;; rest) w)
    = world (sign tool describe unsigned_apk signed_apk keystore w)
  ∧ trace ((sign tool describe unsigned_apk signed_apk keystore;; rest) w)
    = trace (sign tool describe unsigned_apk signed_apk keystore w).
Proof.
  rewrite sign_exit_status_jarsigner. intros [= <-] Hcode.
  unfold mbind, py_bind. rewrite sign_result. cbn zeta.
  rewrite bool_decide_eq_true_2 by assumption.
  repeat split.
Qed.

(** X6: when [jarsigner] exits with 0, what follows the call of [sign] runs
    in the world [jarsigner] left, after all the events of [sign]. *)
Theorem sign_success_runs_what_follows {B : Type} (rest : py W B)
  unsigned_apk signed_apk keystore w :
  exit_status "jarsigner"
    (trace (sign tool describe unsigned_apk signed_apk keystore w)) = Some 0 →
  let after := world (sign tool describe unsigned_apk signed_apk keystore w) in
  result ((sign tool describe unsigned_apk signed_apk keystore;; rest) w)
  = result (rest after)
  ∧ world ((sign tool describe unsigned_apk signed_apk keystore;; rest) w)
    = world (rest after)
  ∧ trace ((sign tool describe unsigned_apk signed_apk keystore;; rest) w)
    = (trace (sign tool describe unsigned_apk signed_apk keystore w)
       ++ trace (rest after))%list.
Proof.
  rewrite sign_exit_status_jarsigner. intros [= Hcode].
  unfold mbind, py_bind. rewrite sign_result. cbn zeta.
  rewrite Hcode. repeat split.
Qed.

End SignMore.

(** X3: the exit status of [zip] has no influence on the run.  With two
    sets of tools whose [zip] leaves the same world and whose [jarsigner]
    then does the same, [sign] has the same outcome and the same final
    world, and the two traces differ at most in the status recorded for
    [zip] (the event at index 3). *)
Theorem sign_zip_status_does_not_matter {W : Type}
  (tool1 tool2 : argv → W → Z * W) (describe : argv → string)
  unsigned_apk signed_apk keystore w :
  let z := spec_archive_invocation unsigned_apk in
  let j := spec_signing_invocation unsigned_apk signed_apk keystore in
  let r1 := sign tool1 describe unsigned_apk signed_apk keystore w in
  let r2 := sign tool2 describe unsigned_apk signed_apk keystore w in
  (tool1 z w).2 = (tool2 z w).2 →
  tool1 j (tool1 z w).2 = tool2 j (tool1 z w).2 →
  result r1 = result r2
  ∧ world r1 = world r2
  ∧ <[3%nat := Exit z (tool2 z w).1]> (trace r1) = trace r2.
Proof.
  cbn zeta. intros Hworld Hsign.
  rewrite !sign_result, !sign_world, !sign_trace. cbn zeta.
  rewrite <- Hworld, <- Hsign. repeat split.
Qed.


(** ** Further runs in the sample world *)

(** The sample tools of a run on [app-unsigned.apk] and [app-signed.apk]
    leave the keystore alone. *)
Lemma sample_zip_keeps_keystore (fs : gmap string (list string)) :
  (sample_tool (spec_archive_invocation "app-unsigned.apk") fs).2
  !! "debug.keystore" = fs !! "debug.keystore".
Proof.
  unfold sample_tool, sample_zip, spec_archive_invocation.
  rewrite bool_decide_eq_true_2 by reflexivity.
  cbn [lookup list_lookup].
  destruct (fs !! "app-unsigned.apk") as [entries|]; [|reflexivity].
  cbn zeta. case_bool_decide; [reflexivity|].
  cbn [snd]. apply lookup_insert_ne. discriminate.
Qed.

Lemma sample_jarsigner_keeps_keystore (fs : gmap string (list string)) :
  (sample_tool
     (spec_signing_invocation "app-unsigned.apk" "app-signed.apk" "debug.keystore")
     fs).2
  !! "debug.keystore" = fs !! "debug.keystore".
Proof.
  unfold sample_tool, sample_jarsigner, spec_signing_invocation.
  rewrite bool_decide_eq_false_2 by discriminate.
  rewrite bool_decide_eq_true_2 by reflexivity.
  cbn [lookup list_lookup].
  destruct (fs !! "debug.keystore") eqn:Hkeystore, (fs !! "app-unsigned.apk");
    cbn [snd]; rewrite lookup_insert_ne by discriminate; exact Hkeystore.
Qed.

Lemma sign_zip_status_does_not_matter_witness :
  let z := spec_archive_invocation "app-unsigned.apk" in
  let j := spec_signing_invocation "app-unsigned.apk" "app-signed.apk" "debug.keystore" in
  let r1 := sign sample_tool sample_describe
              "app-unsigned.apk" "app-signed.apk" "debug.keystore" stripped_fs in
  let r2 := sign (sample_tool_zip_status 0) sample_describe
              "app-unsigned.apk" "app-signed.apk" "debug.keystore" stripped_fs in
  ((sample_tool z stripped_fs).2 = (sample_tool_zip_status 0 z stripped_fs).2
   ∧ sample_tool j (sample_tool z stripped_fs).2
     = sample_tool_zip_status 0 j (sample_tool z stripped_fs).2
   ∧ exit_status "zip" (trace r1) = Some 12
   ∧ exit_status "zip" (trace r2) = Some 0)
  ∧ result r1 = result r2
  ∧ world r1 = world r2
  ∧ <[3%nat := Exit z (sample_tool_zip_status 0 z stripped_fs).1]> (trace r1)
    = trace r2.
Proof.
  cbn zeta.
  split; [repeat split; vm_compute; reflexivity|].
  apply (sign_zip_status_does_not_matter sample_tool (sample_tool_zip_status 0)
           sample_describe "app-unsigned.apk" "app-signed.apk" "debug.keystore"
           stripped_fs);
    vm_compute; reflexivity.
Defined.

Lemma sign_preserves_what_tools_preserve_witness :
  let obs := λ fs : gmap string (list string), fs !! "debug.keystore" in
  let z := spec_archive_invocation "app-unsigned.apk" in
  let j := spec_signing_invocation "app-unsigned.apk" "app-signed.apk" "debug.keystore" in
  ((∀ fs, obs (sample_tool z fs).2 = obs fs)
   ∧ (∀ fs, obs (sample_tool j fs).2 = obs fs))
  ∧ obs (world (sample_sign "app-unsigned.apk" "app-signed.apk" "debug.keystore"
                  sample_fs))
    = obs sample_fs.
Proof.
  cbn zeta. unfold sample_sign.
  split;
    [split; [apply sample_zip_keeps_keystore | apply sample_jarsigner_keeps_keystore]|].
  apply (sign_preserves_what_tools_preserve sample_tool sample_describe
           (λ fs : gmap string (list string), fs !! "debug.keystore")
           "app-unsigned.apk" "app-signed.apk" "debug.keystore" sample_fs);
    [apply sample_zip_keeps_keystore | apply sample_jarsigner_keeps_keystore].
Defined.

Lemma sign_failure_aborts_what_follows_witness :
  let call := sample_sign "app-unsigned.apk" "app-signed.apk" "nope.keystore" in
  (exit_status "jarsigner" (trace (call sample_fs)) = Some 1 ∧ 1 ≠ 0)
  ∧ result ((call;; sample_install) sample_fs)
    = Raised (CalledProcessError 1
                (spec_signing_invocation
                   "app-unsigned.apk" "app-signed.apk" "nope.keystore"))
  ∧ world ((call;; sample_install) sample_fs) = world (call sample_fs)
  ∧ trace ((call;; sample_install) sample_fs) = trace (call sample_fs).
Proof.
  cbn zeta. unfold sample_sign.
  split; [split; [vm_compute; reflexivity | lia]|].
  apply (sign_failure_aborts_what_follows sample_tool sample_describe sample_install
           "app-unsigned.apk" "app-signed.apk" "nope.keystore" sample_fs 1);
    [vm_compute; reflexivity | lia].
Defined.

Lemma sign_success_runs_what_follows_witness :
  let call := sample_sign "app-unsigned.apk" "app-signed.apk" "debug.keystore" in
  let after := world (call sample_fs) in
  exit_status "jarsigner" (trace (call sample_fs)) = Some 0
  ∧ result ((call;; sample_install) sample_fs) = result (sample_install after)
  ∧ world ((call;; sample_install) sample_fs) = world (sample_install after)
  ∧ trace ((call;; sample_install) sample_fs)
    = (trace (call sample_fs) ++ trace (sample_install after))%list.
Proof.
  cbn zeta. unfold sample_sign.
  split; [vm_compute; reflexivity|].
  apply (sign_success_runs_what_follows sample_tool sample_describe sample_install
           "app-unsigned.apk" "app-signed.apk" "debug.keystore" sample_fs).
  vm_compute; reflexivity.
Defined.


(** * Runs in which a child may fail to start *)

Section LaunchFacts.

Context {W : Type}.
Variable tool : argv → W → Launch.started W.
Variable describe : argv → string.

(** The run of [Launch.sign], case by case. *)
Lemma launch_sign_unfold unsigned_apk signed_apk keystore w :
  Launch.sign tool describe unsigned_apk signed_apk keystore w =
  let z := spec_archive_invocation unsigned_apk in
  let j := spec_signing_invocation unsigned_apk signed_apk keystore in
  match tool z w with
  | Launch.NotStarted e =>
      Launch.Run (Launch.Raised (Launch.Start e)) w
        [Stdout "Signing (ignore the warnings)"; Stdout (describe z)]
  | Launch.Exited code1 w1 =>
      match tool j w1 with
      | Launch.NotStarted e =>
          Launch.Run (Launch.Raised (Launch.Start e)) w1
            [Stdout "Signing (ignore the warnings)";
             Stdout (describe z); Spawn z; Exit z code1;
             Stdout (describe j)]
      | Launch.Exited code2 w2 =>
          Launch.Run
            (if bool_decide (code2 ≠ 0)
             then Launch.Raised (Launch.Process (CalledProcessError code2 j))
             else Launch.Returned ())
            w2
            [Stdout "Signing (ignore the warnings)";
             Stdout (describe z); Spawn z; Exit z code1;
             Stdout (describe j); Spawn j; Exit j code2]
      end
  end.
Proof.
  unfold Launch.sign, Launch.subprocess_check_call, Launch.subprocess_call,
    Launch.PrintCmd, Launch.print.
  unfold spec_archive_invocation, spec_signing_invocation.
  unfold mbind, Launch.py_bind, mret, Launch.py_ret, mthrow, Launch.py_throw.
  cbn -[bool_decide].
  destruct (tool _ w) as [code1 w1|e1]; cbn -[bool_decide]; [|reflexivity].
  destruct (tool _ w1) as [code2 w2|e2]; cbn -[bool_decide]; [|reflexivity].
  destruct (bool_decide (code2 ≠ 0)); reflexivity.
Qed.

End LaunchFacts.

(** With tools that always start, [Launch.sign] is [sign]. *)
Lemma launch_sign_refines {W : Type} (tool : argv → W → Z * W)
  (describe : argv → string) unsigned_apk signed_apk keystore w :
  Launch.sign (always_started tool) describe unsigned_apk signed_apk keystore w
  = launch_run (sign tool describe unsigned_apk signed_apk keystore w).
Proof.
  rewrite launch_sign_unfold, sign_unfold.
  unfold always_started, launch_run. cbn -[bool_decide].
  destruct (bool_decide _); reflexivity.
Qed.

(** C5: in every run of [sign] in which the process library can start both
    tools, exactly two children are started: first [zip], which has exited
    before [jarsigner] is started, then [jarsigner].  In every run, also one
    in which a tool cannot be started, the commands started are an initial
    part of these two, and wherever [jarsigner] is started, [zip] has exited
    before. *)
Theorem sign_starts_tools_in_order {W : Type}
  (tool : argv → W → Launch.started W) (describe : argv → string)
  unsigned_apk signed_apk keystore w :
  let t := Launch.trace
             (Launch.sign tool describe unsigned_apk signed_apk keystore w) in
  (Launch.both_start tool unsigned_apk signed_apk keystore w →
   ∃ z j code1 code2,
     process_events t = [Spawn z; Exit z code1; Spawn j; Exit j code2]
     ∧ program z = Some "zip"
     ∧ program j = Some "jarsigner"
     ∧ length (spawned t) = 2%nat)
  ∧ spawned t `prefix_of`
      [spec_archive_invocation unsigned_apk;
       spec_signing_invocation unsigned_apk signed_apk keystore]
  ∧ (∀ pre cmd post,
       t = (pre ++ Spawn cmd :: post)%list →
       program cmd = Some "jarsigner" →
       ∃ code, Exit (spec_archive_invocation unsigned_apk) code ∈ pre).
Proof.
  cbn zeta. rewrite launch_sign_unfold. cbn zeta.
  unfold Launch.both_start.
  fold (spec_archive_invocation unsigned_apk).
  fold (spec_signing_invocation unsigned_apk signed_apk keystore).
  destruct (tool _ w) as [code1 w1|e1].
  - destruct (tool _ w1) as [code2 w2|e2] eqn:Hsign.
    + split; [intros _; do 4 eexists; repeat split|].
      split; [reflexivity|].
      intros pre cmd post Heq Hprog.
      repeat (destruct pre as [|? pre]; simplify_eq/=).
      exists code1. set_solver.
    + split.
      { intros (? & ? & ? & ? & [= <- <-] & Hstart). congruence. }
      split; [eexists [_]; reflexivity|].
      intros pre cmd post Heq Hprog.
      repeat (destruct pre as [|? pre]; simplify_eq/=).
  - split.
    { intros (? & ? & ? & ? & [=] & _). }
    split; [apply prefix_nil|].
    intros pre cmd post Heq Hprog.
    repeat (destruct pre as [|? pre]; simplify_eq/=).
Qed.

(** C9: [sign] checks nothing about its arguments.  Whatever the three
    strings and the world are, both tools are started when the process
    library can start them; an exception that [sign] raises is either the
    refusal of the process library to start one of the two tools or the
    non-zero exit status of [jarsigner] in that run; and two runs on the same
    arguments in which the process library reports alike have the same
    outcome and the same trace, whatever the two worlds contain. *)
Theorem sign_surfaces_only_what_the_library_reports {W1 W2 : Type}
  (tool1 : argv → W1 → Launch.started W1) (tool2 : argv → W2 → Launch.started W2)
  (describe : argv → string) unsigned_apk signed_apk keystore w1 w2 :
  let z := spec_archive_invocation unsigned_apk in
  let j := spec_signing_invocation unsigned_apk signed_apk keystore in
  let r1 := Launch.sign tool1 describe unsigned_apk signed_apk keystore w1 in
  let r2 := Launch.sign tool2 describe unsigned_apk signed_apk keystore w2 in
  (Launch.both_start tool1 unsigned_apk signed_apk keystore w1 →
   spawned (Launch.trace r1) = [z; j])
  ∧ (∀ e, Launch.result r1 = Launch.Raised e →
       (∃ se, e = Launch.Start se
              ∧ (tool1 z w1 = Launch.NotStarted se
                 ∨ ∃ code w', tool1 z w1 = Launch.Exited code w'
                              ∧ tool1 j w' = Launch.NotStarted se))
       ∨ (∃ code, e = Launch.Process (CalledProcessError code j)
                  ∧ code ≠ 0
                  ∧ Exit j code ∈ Launch.trace r1))
  ∧ (Launch.verdict (tool1 z w1) = Launch.verdict (tool2 z w2) →
     match tool1 z w1, tool2 z w2 with
     | Launch.Exited _ w1', Launch.Exited _ w2' =>
         Launch.verdict (tool1 j w1') = Launch.verdict (tool2 j w2')
     | _, _ => True
     end →
     Launch.result r1 = Launch.result r2 ∧ Launch.trace r1 = Launch.trace r2).
Proof.
  cbn zeta. rewrite !launch_sign_unfold. cbn zeta.
  unfold Launch.both_start.
  fold (spec_archive_invocation unsigned_apk).
  fold (spec_signing_invocation unsigned_apk signed_apk keystore).
  destruct (tool1 _ w1) as [c1 w1'|e1].
  - destruct (tool1 _ w1') as [c2 w1''|e2] eqn:Hsign1.
    + split; [reflexivity|]. split.
      * intros e. case_bool_decide as Hcode; [|discriminate].
        intros [= <-]. right. exists c2. split; [reflexivity|].
        split; [exact Hcode | set_solver].
      * destruct (tool2 _ w2) as [d1 w2'|f1]; [|discriminate].
        intros [= ->].
        destruct (tool2 _ w2') as [d2 w2''|f2]; [|discriminate].
        intros [= ->]. split; reflexivity.
    + split.
      { intros (? & ? & ? & ? & [= <- <-] & Hstart). congruence. }
      split.
      * intros e [= <-]. left. exists e2. split; [reflexivity|].
        right. exists c1, w1'. split; [reflexivity | exact Hsign1].
      * destruct (tool2 _ w2) as [d1 w2'|f1]; [|discriminate].
        intros [= ->].
        destruct (tool2 _ w2') as [d2 w2''|f2]; [discriminate|].
        intros [= ->]. split; reflexivity.
  - split.
    { intros (? & ? & ? & ? & [=] & _). }
    split.
    + intros e [= <-]. left. exists e1. split; [reflexivity|]. left. reflexivity.
    + destruct (tool2 _ w2) as [d1 w2'|f1]; [discriminate|].
      intros [= ->] _. split; reflexivity.
Qed.

(** X1: [sign] returns normally exactly when [jarsigner] was started and
    exited with 0, also counting the runs in which a tool cannot be started;
    and a [CalledProcessError] it raises is always that of [jarsigner], with
    its command and its non-zero status: the status of [zip] never becomes
    one. *)
Theorem sign_returns_iff_jarsigner_exits_zero {W : Type}
  (tool : argv → W → Launch.started W) (describe : argv → string)
  unsigned_apk signed_apk keystore w :
  let r := Launch.sign tool describe unsigned_apk signed_apk keystore w in
  (Launch.result r = Launch.Returned ()
   ↔ exit_status "jarsigner" (Launch.trace r) = Some 0)
  ∧ ∀ code cmd,
      Launch.result r
      = Launch.Raised (Launch.Process (CalledProcessError code cmd)) →
      cmd = spec_signing_invocation unsigned_apk signed_apk keystore
      ∧ code ≠ 0
      ∧ exit_status "jarsigner" (Launch.trace r) = Some code.
Proof.
  cbn zeta. rewrite launch_sign_unfold. cbn zeta.
  destruct (tool _ w) as [c1 w1|e1].
  - destruct (tool _ w1) as [c2 w2|e2].
    + case_bool_decide as Hcode.
      * split; [split; [discriminate | intros [= Hzero]; contradiction]|].
        intros code cmd [= <- <-]. repeat split. exact Hcode.
      * rewrite Hcode. split; [split; reflexivity|]. discriminate.
    + split; [split; discriminate|]. discriminate.
  - split; [split; discriminate|]. discriminate.
Qed.

(** ** Runs with the sample process library *)

(** [jarsigner] is not installed: [zip] alone is started, so the run does
    not start two children. *)
Lemma sign_two_processes_counterexample :
  let r := Launch.sign (sample_launcher ["zip"]) sample_describe
             "app-unsigned.apk" "app-signed.apk" "debug.keystore" sample_fs in
  Launch.result r = Launch.Raised (Launch.Start Launch.CannotExecute)
  ∧ spawned (Launch.trace r) = [spec_archive_invocation "app-unsigned.apk"]
  ∧ ¬ ∃ z j code1 code2,
        process_events (Launch.trace r)
        = [Spawn z; Exit z code1; Spawn j; Exit j code2].
Proof.
  cbn zeta. split; [vm_compute; reflexivity|].
  split; [vm_compute; reflexivity|].
  intros (z & j & code1 & code2 & Heq). vm_compute in Heq. discriminate Heq.
Qed.

(** A path with a NUL character: the process library refuses to start
    [zip], [sign] raises, and no child has run or exited. *)
Lemma sign_bad_path_counterexample :
  let r := Launch.sign (sample_launcher ["zip"; "jarsigner"]) sample_describe
             nul_path "app-signed.apk" "debug.keystore" sample_fs in
  Launch.result r = Launch.Raised (Launch.Start Launch.BadArgument)
  ∧ spawned (Launch.trace r) = []
  ∧ ∀ cmd code, Exit cmd code ∉ Launch.trace r.
Proof.
  cbn zeta. split; [vm_compute; reflexivity|].
  split; [vm_compute; reflexivity|].
  assert (Launch.trace
            (Launch.sign (sample_launcher ["zip"; "jarsigner"]) sample_describe
               nul_path "app-signed.apk" "debug.keystore" sample_fs)
          = [Stdout "Signing (ignore the warnings)";
             Stdout (sample_describe (spec_archive_invocation nul_path))])
    as -> by (vm_compute; reflexivity).
  intros cmd code Hin.
  rewrite !elem_of_cons, elem_of_nil in Hin.
  destruct Hin as [Hin|[Hin|[]]]; discriminate Hin.
Qed.

Lemma sign_starts_tools_in_order_witness :
  let tool := sample_launcher ["zip"; "jarsigner"] in
  let z := spec_archive_invocation "app-unsigned.apk" in
  let j := spec_signing_invocation "app-unsigned.apk" "app-signed.apk" "debug.keystore" in
  let t := Launch.trace
             (Launch.sign tool sample_describe
                "app-unsigned.apk" "app-signed.apk" "debug.keystore" sample_fs) in
  let pre := [Stdout "Signing (ignore the warnings)"; Stdout (sample_describe z);
              Spawn z; Exit z 0; Stdout (sample_describe j)] in
  (Launch.both_start tool "app-unsigned.apk" "app-signed.apk" "debug.keystore" sample_fs
   ∧ t = (pre ++ Spawn j :: [Exit j 0])%list
   ∧ program j = Some "jarsigner")
  ∧ (∃ z' j' code1 code2,
       process_events t = [Spawn z'; Exit z' code1; Spawn j'; Exit j' code2]
       ∧ program z' = Some "zip"
       ∧ program j' = Some "jarsigner"
       ∧ length (spawned t) = 2%nat)
  ∧ spawned t `prefix_of` [z; j]
  ∧ ∃ code, Exit z code ∈ pre.
Proof.
  cbn zeta.
  pose proof (sign_starts_tools_in_order (sample_launcher ["zip"; "jarsigner"])
                sample_describe "app-unsigned.apk" "app-signed.apk" "debug.keystore"
                sample_fs) as (Htwo & Hprefix & Horder).
  assert (Launch.both_start (sample_launcher ["zip"; "jarsigner"])
            "app-unsigned.apk" "app-signed.apk" "debug.keystore" sample_fs) as Hstart.
  { exists 0, stripped_fs, 0,
      (sample_tool
         (spec_signing_invocation "app-unsigned.apk" "app-signed.apk" "debug.keystore")
         stripped_fs).2.
    split; vm_compute; reflexivity. }
  split; [split; [exact Hstart | split; vm_compute; reflexivity]|].
  split; [exact (Htwo Hstart)|].
  split; [exact Hprefix|].
  eapply Horder; vm_compute; reflexivity.
Defined.

Lemma sign_surfaces_only_what_the_library_reports_witness :
  let tool := sample_launcher ["zip"; "jarsigner"] in
  let z := spec_archive_invocation "" in
  let j := spec_signing_invocation "" "" "" in
  let r1 := Launch.sign tool sample_describe "" "" "" sample_fs in
  let r2 := Launch.sign tool sample_describe "" "" "" stripped_fs in
  let e := Launch.Process (CalledProcessError 1 j) in
  (Launch.both_start tool "" "" "" sample_fs
   ∧ Launch.result r1 = Launch.Raised e
   ∧ Launch.verdict (tool z sample_fs) = Launch.verdict (tool z stripped_fs)
   ∧ Launch.verdict (tool j sample_fs) = Launch.verdict (tool j stripped_fs))
  ∧ spawned (Launch.trace r1) = [z; j]
  ∧ ((∃ se, e = Launch.Start se
            ∧ (tool z sample_fs = Launch.NotStarted se
               ∨ ∃ code w', tool z sample_fs = Launch.Exited code w'
                            ∧ tool j w' = Launch.NotStarted se))
     ∨ (∃ code, e = Launch.Process (CalledProcessError code j)
                ∧ code ≠ 0
                ∧ Exit j code ∈ Launch.trace r1))
  ∧ Launch.result r1 = Launch.result r2
  ∧ Launch.trace r1 = Launch.trace r2.
Proof.
  cbn zeta.
  pose proof (sign_surfaces_only_what_the_library_reports
                (sample_launcher ["zip"; "jarsigner"])
                (sample_launcher ["zip"; "jarsigner"])
                sample_describe "" "" "" sample_fs stripped_fs)
    as (Hspawn & Hexn & Hsame).
  assert (Launch.both_start (sample_launcher ["zip"; "jarsigner"])
            "" "" "" sample_fs) as Hstart.
  { exists 12, sample_fs, 1,
      (sample_tool (spec_signing_invocation "" "" "") sample_fs).2.
    split; vm_compute; reflexivity. }
  split; [split; [exact Hstart | repeat split; vm_compute; reflexivity]|].
  split; [exact (Hspawn Hstart)|].
  split; [apply Hexn; vm_compute; reflexivity|].
  apply Hsame; vm_compute; reflexivity.
Defined.

Lemma sign_returns_iff_jarsigner_exits_zero_witness :
  let tool := sample_launcher ["zip"; "jarsigner"] in
  let ok := Launch.sign tool sample_describe
              "app-unsigned.apk" "app-signed.apk" "debug.keystore" sample_fs in
  let ko := Launch.sign tool sample_describe
              "app-unsigned.apk" "app-signed.apk" "nope.keystore" sample_fs in
  let j := spec_signing_invocation "app-unsigned.apk" "app-signed.apk" "nope.keystore" in
  (exit_status "jarsigner" (Launch.trace ok) = Some 0
   ∧ Launch.result ko
     = Launch.Raised (Launch.Process (CalledProcessError 1 j)))
  ∧ Launch.result ok = Launch.Returned ()
  ∧ j = j
  ∧ 1 ≠ 0
  ∧ exit_status "jarsigner" (Launch.trace ko) = Some 1.
Proof.
  cbn zeta.
  split; [split; vm_compute; reflexivity|].
  split.
  - apply (proj1 (sign_returns_iff_jarsigner_exits_zero
                    (sample_launcher ["zip"; "jarsigner"]) sample_describe
                    "app-unsigned.apk" "app-signed.apk" "debug.keystore" sample_fs)).
    vm_compute; reflexivity.
  - apply (proj2 (sign_returns_iff_jarsigner_exits_zero
                    (sample_launcher ["zip"; "jarsigner"]) sample_describe
                    "app-unsigned.apk" "app-signed.apk" "nope.keystore" sample_fs)).
    vm_compute; reflexivity.
Defined.
